(** * BigQuery access summary (scripts/bigquery-tests/04_test_access_summary.py)

    A shallow embedding of the permission-probe/report engine:
    [check_dataset_permissions], the access-level cascade of
    [generate_access_report], and the exit status computed by [main].

    Conventions of the embedding.
    - The [permissions] dict has a fixed set of eight string keys, all
      created by the dict literal at the top of [check_dataset_permissions]
      and never added to or removed from; it is a record of eight booleans
      indexed by the enumeration [key] ([item] is [permissions[k]],
      [setitem] is [permissions[k] = b]).
    - The four strings "OWNER", "WRITER", "READER", "NONE" held by the local
      variable [access_level] are the enumeration [AccessLevel]
      ([level_name] gives the literal back).
    - The BigQuery client is an arbitrary state machine [respond] over an
      arbitrary type of worlds: every library call is answered by an outcome
      (normal return or a raised exception) and a next world.  Exceptions are
      the two classes the script names, [NotFound] and [Forbidden], and
      [OtherError] for any other subclass of [Exception] (timeout, quota,
      bad request, credentials).  [KeyboardInterrupt] and [SystemExit] are
      outside the model.
    - [print] is not part of the monadic model; it has no influence on
      control flow.  The text printed after the status lines is the
      function [report_text].
    - The upload, read and pipeline tests of scripts 01-03 are embedded in
      the same style further down ([test_data_upload], [test_data_read],
      [test_write_attempt], [test_ml_pipeline], [test_pipeline_monitoring]
      and their [main]s). *)

From Stdlib Require Import Bool List String ZArith Lia.
Import ListNotations.

(** ** Data model *)

Inductive AccessLevel : Type := NONE | READER | WRITER | OWNER.

Definition level_name (l : AccessLevel) : string :=
  match l with
  | NONE => "NONE"
  | READER => "READER"
  | WRITER => "WRITER"
  | OWNER => "OWNER"
  end%string.

Definition AccessLevel_eqb (a b : AccessLevel) : bool :=
  match a, b with
  | NONE, NONE | READER, READER | WRITER, WRITER | OWNER, OWNER => true
  | _, _ => false
  end.

(** The ordering NONE < READER < WRITER < OWNER. *)
Definition level_rank (l : AccessLevel) : nat :=
  match l with
  | NONE => 0
  | READER => 1
  | WRITER => 2
  | OWNER => 3
  end.

Definition level_le (a b : AccessLevel) : Prop := level_rank a <= level_rank b.

(** The keys of the [permissions] dict, in the order of the dict literal. *)
Inductive key : Type :=
| dataset_exists
| can_list_tables
| can_get_dataset
| can_create_table
| can_read_data
| can_write_data
| can_delete_data
| can_update_dataset.

Record Permissions : Type := mkPermissions {
  v_dataset_exists : bool;
  v_can_list_tables : bool;
  v_can_get_dataset : bool;
  v_can_create_table : bool;
  v_can_read_data : bool;
  v_can_write_data : bool;
  v_can_delete_data : bool;
  v_can_update_dataset : bool
}.

(** [permissions[k]] *)
Definition item (p : Permissions) (k : key) : bool :=
  match k with
  | dataset_exists => v_dataset_exists p
  | can_list_tables => v_can_list_tables p
  | can_get_dataset => v_can_get_dataset p
  | can_create_table => v_can_create_table p
  | can_read_data => v_can_read_data p
  | can_write_data => v_can_write_data p
  | can_delete_data => v_can_delete_data p
  | can_update_dataset => v_can_update_dataset p
  end.

(** [permissions[k] = b] *)
Definition setitem (p : Permissions) (k : key) (b : bool) : Permissions :=
  let '(mkPermissions e l g c r w d u) := p in
  match k with
  | dataset_exists => mkPermissions b l g c r w d u
  | can_list_tables => mkPermissions e b g c r w d u
  | can_get_dataset => mkPermissions e l b c r w d u
  | can_create_table => mkPermissions e l g b r w d u
  | can_read_data => mkPermissions e l g c b w d u
  | can_write_data => mkPermissions e l g c r b d u
  | can_delete_data => mkPermissions e l g c r w b u
  | can_update_dataset => mkPermissions e l g c r w d b
  end.

(** The dict literal of lines 19-28: every key is [False]. *)
Definition all_false : Permissions :=
  mkPermissions false false false false false false false false.

(** ** Classification (generate_access_report, lines 158-169) *)

Definition access_level (permissions : Permissions) : AccessLevel :=
  if item permissions can_update_dataset && item permissions can_delete_data
  then OWNER
  else if item permissions can_write_data && item permissions can_create_table
  then WRITER
  else if item permissions can_read_data
  then READER
  else NONE.

(** The reference definition, following the words of the specification:
    OWNER requires both update and delete evidence; otherwise WRITER
    requires both write and create evidence; otherwise READER requires only
    read evidence; otherwise NONE. *)
Inductive classify_spec (p : Permissions) : AccessLevel -> Prop :=
| spec_owner :
    item p can_update_dataset = true -> item p can_delete_data = true ->
    classify_spec p OWNER
| spec_writer :
    ~ (item p can_update_dataset = true /\ item p can_delete_data = true) ->
    item p can_write_data = true -> item p can_create_table = true ->
    classify_spec p WRITER
| spec_reader :
    ~ (item p can_update_dataset = true /\ item p can_delete_data = true) ->
    ~ (item p can_write_data = true /\ item p can_create_table = true) ->
    item p can_read_data = true ->
    classify_spec p READER
| spec_none :
    ~ (item p can_update_dataset = true /\ item p can_delete_data = true) ->
    ~ (item p can_write_data = true /\ item p can_create_table = true) ->
    item p can_read_data <> true ->
    classify_spec p NONE.

(** The statement "NONE is yielded iff can_read_data is false", as the
    specification words it. *)
Definition none_iff_unreadable : Prop :=
  forall p : Permissions,
    access_level p = NONE <-> item p can_read_data = false.

(** Two assignments of the eight probe booleans are equal. *)
Definition same_assignment (p q : Permissions) : Prop :=
  forall k : key, item p k = item q k.

(** Pointwise order on assignments: every key true in [p] is true in [q]. *)
Definition pointwise_le (p q : Permissions) : Prop :=
  forall k : key, item p k = true -> item q k = true.

(** ** The client and its failures *)

(** The library calls the report makes, each answered once by the client:
    [bigquery.Client(project=...)], [google.auth.default()],
    [client.get_dataset], [list(client.list_tables(...))], the three queries
    (SELECT 1, CREATE OR REPLACE TABLE ... AS SELECT, DELETE FROM) together
    with the consumption of their results, the cleanup [client.delete_table]
    of access_test_temp, and [client.update_dataset]. *)
Inductive api_call : Type :=
| NewClient
| AuthDefault
| GetDataset
| ListTables
| QueryRead
| QueryCreate
| DeleteTable
| QueryDelete
| UpdateDataset.

Inductive exn : Type := NotFound | Forbidden | OtherError.

Inductive outcome : Type := Ok | Raise (e : exn).

Definition is_ok (o : outcome) : bool :=
  match o with
  | Ok => true
  | Raise _ => false
  end.

Definition api_call_eqb (a b : api_call) : bool :=
  match a, b with
  | NewClient, NewClient | AuthDefault, AuthDefault | GetDataset, GetDataset
  | ListTables, ListTables | QueryRead, QueryRead | QueryCreate, QueryCreate
  | DeleteTable, DeleteTable | QueryDelete, QueryDelete
  | UpdateDataset, UpdateDataset => true
  | _, _ => false
  end.

(** ** Frames and the monad of the script

    A frame holds the client's world, the log of the calls answered so far,
    and the two locals the claims speak about: the [permissions] dict
    (mutated in place, so an exception does not undo earlier stores) and the
    [access_level] of [generate_access_report] (unbound until line 158). *)
Record frame (World : Type) : Type := mkFrame {
  world : World;
  log : list (api_call * outcome);
  permissions : Permissions;
  level : option AccessLevel
}.
Arguments mkFrame {World} _ _ _ _.
Arguments world {World} _.
Arguments log {World} _.
Arguments permissions {World} _.
Arguments level {World} _.

Inductive result (A : Type) : Type :=
| Returned (a : A)
| Raised (e : exn).
Arguments Returned {A} _.
Arguments Raised {A} _.

Definition M (World A : Type) : Type := frame World -> result A * frame World.

Definition ret {World A : Type} (a : A) : M World A :=
  fun f => (Returned a, f).

Definition raise {World A : Type} (e : exn) : M World A :=
  fun f => (Raised e, f).

Definition bind {World A B : Type} (m : M World A) (k : A -> M World B)
  : M World B :=
  fun f =>
    match m f with
    | (Returned a, f') => k a f'
    | (Raised e, f') => (Raised e, f')
    end.

(** [try: body except <clauses>: handler]; a clause that does not match
    re-raises inside [handler]. *)
Definition try_except {World A : Type} (body : M World A)
  (handler : exn -> M World A) : M World A :=
  fun f =>
    match body f with
    | (Returned a, f') => (Returned a, f')
    | (Raised e, f') => handler e f'
    end.

(** [except: pass] *)
Definition pass {World : Type} (_ : exn) : M World unit := ret tt.

Declare Scope script_scope.
Delimit Scope script_scope with script.
Notation "x <- m ;; k" := (bind m (fun x => k))
  (at level 100, m at next level, right associativity) : script_scope.
Notation "m ;; k" := (bind m (fun _ => k))
  (at level 100, right associativity) : script_scope.
Local Open Scope script_scope.

(** [permissions[k] = b] on the frame's dict. *)
Definition assign {World : Type} (k : key) (b : bool) : M World unit :=
  fun f =>
    (Returned tt,
     mkFrame (world f) (log f) (setitem (permissions f) k b) (level f)).

(** [permissions = {...: False}], lines 19-28. *)
Definition new_permissions {World : Type} : M World unit :=
  fun f => (Returned tt, mkFrame (world f) (log f) all_false (level f)).

(** The value of the local [permissions]. *)
Definition read_permissions {World : Type} : M World Permissions :=
  fun f => (Returned (permissions f), f).

(** [access_level = ...], lines 159-168. *)
Definition assign_level {World : Type} (l : AccessLevel) : M World unit :=
  fun f =>
    (Returned tt, mkFrame (world f) (log f) (permissions f) (Some l)).

Definition fresh {World : Type} (w : World) : frame World :=
  mkFrame w [] all_false None.

Section Script.
Context {World : Type}.
Variable respond : World -> api_call -> outcome * World.

(** One library call: the client answers, the answer is logged, and an
    exception outcome is raised in the script. *)
Definition client_call (c : api_call) : M World unit :=
  fun f =>
    let (o, w') := respond (world f) c in
    let f' := mkFrame w' (log f ++ [(c, o)]) (permissions f) (level f) in
    match o with
    | Ok => (Returned tt, f')
    | Raise e => (Raised e, f')
    end.

(** Lines 16-88.  The first [try] yields [true] when one of its handlers
    executed [return permissions]. *)
Definition check_dataset_permissions : M World Permissions :=
  new_permissions ;;
  returned <- try_except
                (client_call GetDataset ;;
                 assign dataset_exists true ;;
                 assign can_get_dataset true ;;
                 ret false)
                (fun e =>
                   match e with
                   | NotFound => ret true
                   | Forbidden => ret true
                   | OtherError => raise OtherError
                   end) ;;
  if returned : bool then read_permissions else
  try_except
    (client_call ListTables ;;
     assign can_list_tables true)
    pass ;;
  try_except
    (client_call QueryRead ;;
     assign can_read_data true)
    pass ;;
  try_except
    (client_call QueryCreate ;;
     assign can_create_table true ;;
     assign can_write_data true ;;
     client_call DeleteTable)
    pass ;;
  try_except
    (client_call QueryDelete ;;
     assign can_delete_data true)
    pass ;;
  try_except
    (client_call UpdateDataset ;;
     assign can_update_dataset true)
    pass ;;
  read_permissions.

(** Lines 91-107: every failure is swallowed; the returned pair of strings
    is only printed. *)
Definition get_current_user_info : M World unit :=
  try_except (client_call AuthDefault) pass.

(** Lines 133-203. *)
Definition generate_access_report : M World bool :=
  client_call NewClient ;;
  get_current_user_info ;;
  permissions <- check_dataset_permissions ;;
  let derived := access_level permissions in
  assign_level derived ;;
  ret (negb (AccessLevel_eqb derived NONE)).

(** Lines 206-223, after argument parsing; the value is handed to
    [sys.exit]. *)
Definition main : M World Z :=
  try_except
    (has_access <- generate_access_report ;;
     ret (if has_access : bool then 0%Z else 1%Z))
    (fun _ => ret 1%Z).

(** A run of [check_dataset_permissions] from a fresh frame. *)
Definition run_check (w : World) : result Permissions * frame World :=
  check_dataset_permissions (fresh w).

Definition check_result (w : World) : result Permissions :=
  fst (run_check w).

Definition check_log (w : World) : list (api_call * outcome) :=
  log (snd (run_check w)).
End Script.

(** ** The probe battery *)

(** The calls of [check_dataset_permissions] in program order; the cleanup
    call [DeleteTable] is the only one that is not a probe. *)
Definition program_order : list api_call :=
  [GetDataset; ListTables; QueryRead; QueryCreate; DeleteTable; QueryDelete;
   UpdateDataset].

Definition is_probe (c : api_call) : bool := negb (api_call_eqb c DeleteTable).

Definition battery : list api_call := filter is_probe program_order.

Fixpoint after (c : api_call) (l : list api_call) : list api_call :=
  match l with
  | [] => []
  | x :: l' => if api_call_eqb x c then l' else after c l'
  end.

(** The probes that come after call [c] in program order. *)
Definition subsequent (c : api_call) : list api_call :=
  filter is_probe (after c program_order).

(** The keys a probe stores to when its call succeeds. *)
Definition keys_of (c : api_call) : list key :=
  match c with
  | GetDataset => [dataset_exists; can_get_dataset]
  | ListTables => [can_list_tables]
  | QueryRead => [can_read_data]
  | QueryCreate => [can_create_table; can_write_data]
  | QueryDelete => [can_delete_data]
  | UpdateDataset => [can_update_dataset]
  | NewClient | AuthDefault | DeleteTable => []
  end.

(** The dict after a complete battery whose five later probes were answered
    by [ol], [orr], [oc], [oq], [ou]. *)
Definition probed (ol orr oc oq ou : outcome) : Permissions :=
  mkPermissions true (is_ok ol) true (is_ok oc) (is_ok orr) (is_ok oc)
    (is_ok oq) (is_ok ou).

(** The part of the log the cleanup contributes: one entry when the
    create-as-select succeeded, none otherwise. *)
Definition cleanup_log (oc od : outcome) : list (api_call * outcome) :=
  match oc with
  | Ok => [(DeleteTable, od)]
  | Raise _ => []
  end.

(** The three shapes a run of [check_dataset_permissions] can take: result,
    calls logged by the run, and the dict left in the frame. *)
Inductive run_shape :
  result Permissions -> list (api_call * outcome) -> Permissions -> Prop :=
| shape_early (e : exn) :
    e <> OtherError ->
    run_shape (Returned all_false) [(GetDataset, Raise e)] all_false
| shape_abort :
    run_shape (Raised OtherError) [(GetDataset, Raise OtherError)] all_false
| shape_full (ol orr oc od oq ou : outcome) :
    run_shape (Returned (probed ol orr oc oq ou))
      ((GetDataset, Ok) :: (ListTables, ol) :: (QueryRead, orr)
         :: (QueryCreate, oc)
         :: cleanup_log oc od ++ [(QueryDelete, oq); (UpdateDataset, ou)])
      (probed ol orr oc oq ou).

(** The pairing of keys that are stored together. *)
Definition paired (p : Permissions) : Prop :=
  item p can_create_table = item p can_write_data
  /\ item p dataset_exists = item p can_get_dataset.

(** ** The statements of the specification that the runs are checked against *)

Section Statements.
Context {World : Type}.
Variable respond : World -> api_call -> outcome * World.
Variable w : World.

(** Isolation as the specification states it: whichever probe fails, and
    however, every later probe is attempted and its outcome is recorded
    in the returned dict. *)
Definition isolation : Prop :=
  forall (c : api_call) (e : exn),
    In c battery ->
    In (c, Raise e) (check_log respond w) ->
    exists p,
      check_result respond w = Returned p
      /\ forall c', In c' (subsequent c) ->
           exists o, In (c', o) (check_log respond w)
                     /\ forall k, In k (keys_of c') -> item p k = is_ok o.

(** Propagation as the specification states it: an error raised by any
    call other than the construction of the client is caught, the probe's
    keys are false, and the run continues with the later probes. *)
Definition only_construction_errors_propagate : Prop :=
  forall (c : api_call) (e : exn),
    c <> NewClient ->
    In (c, Raise e) (check_log respond w) ->
    exists p,
      check_result respond w = Returned p
      /\ (forall k, In k (keys_of c) -> item p k = false)
      /\ forall c', In c' (subsequent c) ->
           In c' (map fst (check_log respond w)).

(** Cleanup as the specification states it: whenever the create/write
    probe executes, whatever its outcome, the cleanup call is made. *)
Definition cleanup_always : Prop :=
  In QueryCreate (map fst (check_log respond w)) ->
  In DeleteTable (map fst (check_log respond w)).
End Statements.

(** ** Concrete clients *)

(** A client that answers every call from a fixed table. *)
Definition scripted (answers : api_call -> outcome)
  : unit -> api_call -> outcome * unit :=
  fun _ c => (answers c, tt).

Definition all_granted : api_call -> outcome := fun _ => Ok.

Definition dataset_missing : api_call -> outcome :=
  fun c => match c with GetDataset => Raise NotFound | _ => Ok end.

Definition dataset_times_out : api_call -> outcome :=
  fun c => match c with GetDataset => Raise OtherError | _ => Ok end.

Definition listing_denied : api_call -> outcome :=
  fun c => match c with ListTables => Raise Forbidden | _ => Ok end.

Definition create_denied : api_call -> outcome :=
  fun c => match c with QueryCreate => Raise Forbidden | _ => Ok end.

Definition cleanup_fails : api_call -> outcome :=
  fun c => match c with DeleteTable => Raise OtherError | _ => Ok end.

(** A client with state: a quota of [n] calls, after which every call
    fails with a transient error. *)
Definition quota_client (n : nat) (_ : api_call) : outcome * nat :=
  match n with
  | O => (Raise OtherError, O)
  | S m => (Ok, m)
  end.

(** ** Further vocabulary for the runs of script 04 *)

(** The call whose success stores key [k]. *)
Definition call_of (k : key) : api_call :=
  match k with
  | dataset_exists | can_get_dataset => GetDataset
  | can_list_tables => ListTables
  | can_read_data => QueryRead
  | can_create_table | can_write_data => QueryCreate
  | can_delete_data => QueryDelete
  | can_update_dataset => UpdateDataset
  end.

(** [subsequence l m]: the calls [l] occur in [m], in the same order. *)
Fixpoint subsequence (l m : list api_call) {struct m} : bool :=
  match m with
  | [] => match l with [] => true | _ :: _ => false end
  | y :: m' =>
      match l with
      | [] => true
      | x :: l' =>
          if api_call_eqb x y then subsequence l' m' else subsequence l m'
      end
  end.

(** The dicts [check_dataset_permissions] can return. *)
Definition returnable (p : Permissions) : Prop :=
  p = all_false
  \/ (item p dataset_exists = true
      /\ item p can_get_dataset = true
      /\ item p can_create_table = item p can_write_data).

(** A table of answers under which the probes produce the dict [p]. *)
Definition answers_for (p : Permissions) : api_call -> outcome :=
  fun c =>
    match c with
    | NewClient | AuthDefault | DeleteTable => Ok
    | GetDataset => if item p dataset_exists then Ok else Raise NotFound
    | ListTables => if item p can_list_tables then Ok else Raise Forbidden
    | QueryRead => if item p can_read_data then Ok else Raise Forbidden
    | QueryCreate => if item p can_create_table then Ok else Raise Forbidden
    | QueryDelete => if item p can_delete_data then Ok else Raise Forbidden
    | UpdateDataset => if item p can_update_dataset then Ok else Raise Forbidden
    end.

(** The table [answers] with the answer to call [c] replaced by [o]. *)
Definition with_answer (answers : api_call -> outcome) (c : api_call)
  (o : outcome) : api_call -> outcome :=
  fun c' => if api_call_eqb c' c then o else answers c'.

(** The calls of a whole report in program order. *)
Definition report_order : list api_call :=
  NewClient :: AuthDefault :: program_order.

Section ReportRuns.
Context {World : Type}.
Variable respond : World -> api_call -> outcome * World.

(** A run of [generate_access_report] and of [main] from a fresh frame. *)
Definition run_report (w : World) : result bool * frame World :=
  generate_access_report respond (fresh w).

Definition run_main (w : World) : result Z * frame World :=
  main respond (fresh w).

Definition exit_status (w : World) : result Z := fst (run_main w).

Definition main_log (w : World) : list (api_call * outcome) :=
  log (snd (run_main w)).
End ReportRuns.

(** The shapes a run of [generate_access_report] can take: result, log,
    dict and derived level left in the frame. *)
Inductive report_shape :
  result bool -> list (api_call * outcome) -> Permissions ->
  option AccessLevel -> Prop :=
| report_no_client (e : exn) :
    report_shape (Raised e) [(NewClient, Raise e)] all_false None
| report_aborted (oa : outcome) :
    report_shape (Raised OtherError)
      [(NewClient, Ok); (AuthDefault, oa); (GetDataset, Raise OtherError)]
      all_false None
| report_done (oa : outcome) (p : Permissions) (lg : list (api_call * outcome)) :
    run_shape (Returned p) lg p ->
    report_shape (Returned (negb (AccessLevel_eqb (access_level p) NONE)))
      ((NewClient, Ok) :: (AuthDefault, oa) :: lg) p
      (Some (access_level p)).

(** ** Scripts 01-03: the upload, read and pipeline tests

    The three scripts talk to the client through the requests below.  What
    a request returns is abstracted to the one number the scripts look at:
    the number of insert errors for [insert_rows_json], the number of rows
    for a query result or a data frame, and 0 where the value is only
    printed.  A request stands for the library call together with the
    consumption of its result on the same line or in the prints that
    follow it.  Every failure is an exception of [exn]; both handlers of
    the scripts ([GoogleCloudError] and [Exception]) return [False], so they
    are one handler here. *)
Inductive request : Type :=
| Client
| InsertRowsJson (rows : nat)
| CountToday
| SelectPreview
| SelectDaily
| GetTable
| DeleteAttempt
| ReadRecent
| Simulate (rows : nat)
| LoadTable (rows : nat)
| Summarise
| Monitor.

Inductive answer : Type := Done (n : nat) | Fail (e : exn).

Record session (World : Type) : Type := mkSession {
  client_world : World;
  asked : list (request * answer)
}.
Arguments mkSession {World} _ _.
Arguments client_world {World} _.
Arguments asked {World} _.

Definition T (World A : Type) : Type :=
  session World -> result A * session World.

Definition t_ret {World A : Type} (a : A) : T World A :=
  fun s => (Returned a, s).

Definition t_raise {World A : Type} (e : exn) : T World A :=
  fun s => (Raised e, s).

Definition t_bind {World A B : Type} (m : T World A) (k : A -> T World B)
  : T World B :=
  fun s =>
    match m s with
    | (Returned a, s') => k a s'
    | (Raised e, s') => (Raised e, s')
    end.

Definition t_try {World A : Type} (body : T World A)
  (handler : exn -> T World A) : T World A :=
  fun s =>
    match body s with
    | (Returned a, s') => (Returned a, s')
    | (Raised e, s') => handler e s'
    end.

Declare Scope test_scope.
Delimit Scope test_scope with test.
Notation "x <- m ;; k" := (t_bind m (fun x => k))
  (at level 100, m at next level, right associativity) : test_scope.
Notation "m ;; k" := (t_bind m (fun _ => k))
  (at level 100, right associativity) : test_scope.

Definition start {World : Type} (w : World) : session World := mkSession w [].

Section Tests.
Local Open Scope test_scope.
Context {World : Type}.
Variable respond : World -> request -> answer * World.

(** One request: the client answers, the answer is recorded, and a failure
    is raised in the script. *)
Definition ask (r : request) : T World nat :=
  fun s =>
    let (a, w') := respond (client_world s) r in
    let s' := mkSession w' (asked s ++ [(r, a)]) in
    match a with
    | Done n => (Returned n, s')
    | Fail e => (Raised e, s')
    end.

(** *** 01_test_data_upload.py *)

(** Lines 16-87.  [test_rows] has three rows; [result[0]] raises
    [IndexError] on an empty result. *)
Definition test_data_upload : T World bool :=
  t_try
    (ask Client ;;
     let test_rows := 3 in
     errors <- ask (InsertRowsJson test_rows) ;;
     if Nat.eqb errors 0 then
       result <- ask CountToday ;;
       (if Nat.eqb result 0 then t_raise OtherError else t_ret tt) ;;
       t_ret true
     else
       t_ret false)
    (fun _ => t_ret false).

(** Lines 90-111, after argument parsing. *)
Definition upload_main : T World Z :=
  success <- test_data_upload ;;
  t_ret (if success : bool then 0%Z else 1%Z).

(** *** 02_test_data_read.py *)

(** Lines 15-89. *)
Definition test_data_read : T World bool :=
  t_try
    (ask Client ;;
     ask SelectPreview ;;
     ask SelectDaily ;;
     ask GetTable ;;
     t_ret true)
    (fun _ => t_ret false).

(** Lines 92-114. *)
Definition test_write_attempt : T World bool :=
  t_try
    (ask Client ;;
     ask DeleteAttempt ;;
     t_ret true)
    (fun _ => t_ret false).

(** Lines 117-147, after argument parsing.  The local [has_write] is bound
    only when the write test ran; reading it unbound raises [NameError]. *)
Definition read_main (test_write : bool) : T World Z :=
  read_success <- test_data_read ;;
  has_write <- (if test_write && read_success
                then b <- test_write_attempt ;; t_ret (Some b)
                else t_ret None) ;;
  (if read_success : bool then
     if test_write then
       match has_write with
       | Some _ => t_ret tt
       | None => t_raise OtherError
       end
     else t_ret tt
   else t_ret tt) ;;
  t_ret (if read_success : bool then 0%Z else 1%Z).

(** *** 03_test_ml_pipeline.py *)

(** Lines 18-33.  The column assignments are one step that may raise; the
    frame handed in is the frame returned, so its number of rows does not
    change. *)
Definition simulate_ml_processing (df : nat) : T World nat :=
  ask (Simulate df) ;;
  t_ret df.

(** Lines 36-150.  An empty read is replaced by five sample rows. *)
Definition test_ml_pipeline : T World bool :=
  t_try
    (ask Client ;;
     df <- ask ReadRecent ;;
     let df := if Nat.eqb df 0 then 5 else df in
     processed_df <- simulate_ml_processing df ;;
     ask (LoadTable processed_df) ;;
     ask Summarise ;;
     t_ret true)
    (fun _ => t_ret false).

(** Lines 153-187. *)
Definition test_pipeline_monitoring : T World bool :=
  t_try
    (ask Client ;;
     ask Monitor ;;
     t_ret true)
    (fun _ => t_ret false).

(** Lines 190-214, after argument parsing. *)
Definition pipeline_main (monitor : bool) : T World Z :=
  success <- test_ml_pipeline ;;
  (if monitor && success
   then test_pipeline_monitoring ;; t_ret tt
   else t_ret tt) ;;
  t_ret (if success : bool then 0%Z else 1%Z).
End Tests.

(** A failed request is the last request of a session. *)
Definition stops_at_failure (l : list (request * answer)) : Prop :=
  forall l1 r e l2, l = l1 ++ (r, Fail e) :: l2 -> l2 = [].

(** A client for the tests that answers from a fixed table. *)
Definition replying (answers : request -> answer)
  : unit -> request -> answer * unit :=
  fun _ r => (answers r, tt).

Definition everything_done : request -> answer := fun _ => Done 1.

Definition nothing_recent : request -> answer :=
  fun r => match r with ReadRecent => Done 0 | _ => Done 1 end.

Definition count_denied : request -> answer :=
  fun r => match r with
           | InsertRowsJson _ => Done 0
           | CountToday => Fail Forbidden
           | _ => Done 1
           end.

Definition insert_clean : request -> answer :=
  fun r => match r with InsertRowsJson _ => Done 0 | _ => Done 1 end.

(** Runs of the three tests from an empty session. *)
Section TestRuns.
Context {World : Type}.
Variable respond : World -> request -> answer * World.

Definition upload_exit (w : World) : result Z :=
  fst (upload_main respond (start w)).

Definition upload_asked (w : World) : list (request * answer) :=
  asked (snd (upload_main respond (start w))).

Definition read_exit (test_write : bool) (w : World) : result Z :=
  fst (read_main respond test_write (start w)).

Definition read_asked (test_write : bool) (w : World)
  : list (request * answer) :=
  asked (snd (read_main respond test_write (start w))).

Definition pipeline_exit (monitor : bool) (w : World) : result Z :=
  fst (pipeline_main respond monitor (start w)).

Definition pipeline_asked (monitor : bool) (w : World)
  : list (request * answer) :=
  asked (snd (pipeline_main respond monitor (start w))).
End TestRuns.

(** Executable form of [stops_at_failure]. *)
Fixpoint failure_last (l : list (request * answer)) : bool :=
  match l with
  | [] => true
  | (_, Done _) :: t => failure_last t
  | (_, Fail _) :: t => match t with [] => true | _ :: _ => false end
  end.

(** ** The text of the report (generate_access_report, lines 156-201)

    The lines printed after the status lines, one string per [print] call:
    the level summary, the recommendations chosen by the derived level, and
    the sample queries.  They depend on the dict and on the two names only,
    and printing does not influence the control flow, so they are a function
    beside the monadic [generate_access_report]. *)
Definition nl : string := String (Ascii.ascii_of_nat 10) EmptyString.

Section ReportText.
Variables project_id dataset_id : string.

Definition report_text (permissions : Permissions) : list string :=
  let derived := access_level permissions in
  [ (nl ++ "📊 Access Level Summary:")%string ]
  ++ [ match derived with
       | OWNER => "   🔑 You have OWNER access (full control)"
       | WRITER => "   ✏️  You have WRITER access (can read and modify data)"
       | READER => "   👁️  You have READER access (read-only)"
       | NONE => "   🚫 You have NO ACCESS to this dataset"
       end%string ]
  ++ [ (nl ++ "💡 Recommendations:")%string ]
  ++ match derived with
     | NONE =>
         [ "   1. Ensure the dataset exists: just apply dev";
           "   2. Request access from admin: add your email/group to dataset_access in main.tf";
           "   3. Check if you're authenticated: gcloud auth list" ]%string
     | READER =>
         [ "   - You can run analytics and reports";
           "   - For write access, request WRITER role from admin" ]%string
     | WRITER =>
         [ "   - You can read/write data and create tables";
           "   - You cannot modify dataset properties or permissions" ]%string
     | OWNER =>
         [ "   - You have full control over this dataset";
           "   - Be careful with destructive operations" ]%string
     end
  ++ (if item permissions can_read_data then
        [ (nl ++ "📝 Sample Queries You Can Run:")%string;
          (nl ++ "-- Count transcripts:")%string;
          ("SELECT COUNT(*) FROM `" ++ project_id ++ "." ++ dataset_id
             ++ ".transcripts`")%string ]
        ++ (if item permissions can_write_data then
              [ (nl ++ "-- Insert new transcript:")%string;
                ("INSERT INTO `" ++ project_id ++ "." ++ dataset_id
                   ++ ".transcripts`")%string;
                "VALUES ('id123', CURRENT_DATETIME(), 'Your content here')"%string;
                (nl ++ "-- Create new table:")%string;
                ("CREATE TABLE `" ++ project_id ++ "." ++ dataset_id
                   ++ ".your_table`")%string;
                ("AS SELECT * FROM `" ++ project_id ++ "." ++ dataset_id
                   ++ ".transcripts`")%string ]
            else [])
      else []).
End ReportText.

(** Some line of [lines] starts with [statement]. *)
Definition suggests (statement : string) (lines : list string) : bool :=
  existsb (String.prefix statement) lines.

(** ** Tactics for membership in a logged run *)

Ltac pick_entry :=
  repeat match goal with
         | H : In _ (_ :: _) |- _ => destruct H as [H | H]
         | H : In _ [] |- _ => destruct H
         | H : _ \/ _ |- _ => destruct H as [H | H]
         | H : False |- _ => destruct H
         | H : ?a = ?a |- _ => clear H
         | H : ?a = ?b |- _ => is_var b; subst b
         | H : ?a = ?b |- _ => is_var a; subst a
         | H : (_, _) = (_, _) |- _ => inversion H; subst; clear H
         | H : ?c <> ?c |- _ => contradiction H; reflexivity
         end;
  try discriminate.

Ltac find_entry :=
  cbn [In map fst]; repeat (first [ left; reflexivity | right ]).

(** ** Basic facts about the dict model *)

Lemma item_setitem_same (p : Permissions) (k : key) (b : bool) :
  item (setitem p k b) k = b.
Proof. destruct p, k; reflexivity. Qed.

Lemma item_setitem_other (p : Permissions) (k k' : key) (b : bool) :
  k <> k' -> item (setitem p k b) k' = item p k'.
Proof. destruct p, k, k'; intros H; try reflexivity; contradiction H; reflexivity. Qed.

Lemma same_assignment_eq (p q : Permissions) :
  same_assignment p q -> p = q.
Proof.
  intros H. destruct p, q.
  pose proof (H dataset_exists). pose proof (H can_list_tables).
  pose proof (H can_get_dataset). pose proof (H can_create_table).
  pose proof (H can_read_data). pose proof (H can_write_data).
  pose proof (H can_delete_data). pose proof (H can_update_dataset).
  simpl in *. congruence.
Qed.

(** The cascade reads five of the eight keys and nothing else. *)
Lemma access_level_reads_five (p q : Permissions) :
  item p can_update_dataset = item q can_update_dataset ->
  item p can_delete_data = item q can_delete_data ->
  item p can_write_data = item q can_write_data ->
  item p can_create_table = item q can_create_table ->
  item p can_read_data = item q can_read_data ->
  access_level p = access_level q.
Proof.
  unfold access_level. intros -> -> -> -> ->. reflexivity.
Qed.

Lemma access_level_pointwise_mono (p q : Permissions) :
  pointwise_le p q -> level_le (access_level p) (access_level q).
Proof.
  intros H. unfold level_le, access_level.
  pose proof (H can_update_dataset) as Hu. pose proof (H can_delete_data) as Hd.
  pose proof (H can_write_data) as Hw. pose proof (H can_create_table) as Hc.
  pose proof (H can_read_data) as Hr.
  destruct (item p can_update_dataset), (item p can_delete_data),
    (item p can_write_data), (item p can_create_table), (item p can_read_data),
    (item q can_update_dataset), (item q can_delete_data),
    (item q can_write_data), (item q can_create_table), (item q can_read_data);
    cbn [andb level_rank]; try lia;
    match goal with
    | Hx : true = true -> false = true |- _ => discriminate (Hx eq_refl)
    end.
Qed.

Lemma setitem_true_pointwise_le (p : Permissions) (k : key) :
  pointwise_le p (setitem p k true).
Proof.
  intros k' Hk'. destruct p, k, k'; simpl in *; auto.
Qed.

(** ** Claims about the classification *)

(** C1: the cascade of [generate_access_report] agrees with the reference
    definition of the specification (OWNER when update and delete both hold,
    otherwise WRITER when write and create both hold, otherwise READER when
    read holds, otherwise NONE), and an assignment with
    can_update_dataset=true, can_delete_data=true, can_write_data=false is
    classified OWNER whatever the other five keys hold. *)
Theorem C1_access_level_refines_spec :
  (forall (p : Permissions) (l : AccessLevel),
      classify_spec p l <-> access_level p = l)
  /\ (forall p : Permissions,
         access_level
           (setitem (setitem (setitem p can_update_dataset true)
                       can_delete_data true) can_write_data false) = OWNER).
Proof.
  split.
  - intros p l. unfold access_level. split.
    + intros H.
      destruct H as [Hu Hd | Hn Hw Hc | Hn Hn' Hr | Hn Hn' Hr];
        destruct (item p can_update_dataset), (item p can_delete_data),
          (item p can_write_data), (item p can_create_table),
          (item p can_read_data);
        cbn [andb]; try reflexivity; try discriminate;
        exfalso; intuition congruence.
    + intros <-.
      destruct (item p can_update_dataset) eqn:Hu,
               (item p can_delete_data) eqn:Hd,
               (item p can_write_data) eqn:Hw,
               (item p can_create_table) eqn:Hc,
               (item p can_read_data) eqn:Hr;
        cbn [andb];
        first [ apply spec_owner; assumption
              | apply spec_writer; [ intros [? ?]; congruence | assumption | assumption ]
              | apply spec_reader;
                [ intros [? ?]; congruence | intros [? ?]; congruence | assumption ]
              | apply spec_none;
                [ intros [? ?]; congruence | intros [? ?]; congruence | congruence ] ].
  - intros p. destruct p. reflexivity.
Qed.

(** C2 as stated is refuted: with can_read_data=false but can_write_data and
    can_create_table both true the cascade stops at WRITER, not NONE. *)
Lemma C2_none_iff_unreadable_fails : ~ none_iff_unreadable.
Proof.
  intros H.
  pose (p := mkPermissions true true true true false true false false).
  destruct (H p) as [_ Hback].
  specialize (Hback eq_refl). discriminate Hback.
Qed.

(** C2 (amended): the cascade yields NONE exactly when can_read_data is
    false and neither the OWNER pair (can_update_dataset, can_delete_data)
    nor the WRITER pair (can_write_data, can_create_table) is fully true; in
    particular NONE always implies can_read_data=false.  An assignment with
    can_read_data=false yields OWNER when the OWNER pair is fully true, and
    otherwise WRITER when the WRITER pair is fully true. *)
Theorem C2_none_characterised (p : Permissions) :
  (access_level p = NONE <->
     item p can_read_data = false
     /\ item p can_write_data && item p can_create_table = false
     /\ item p can_update_dataset && item p can_delete_data = false)
  /\ (access_level p = NONE -> item p can_read_data = false)
  /\ (item p can_read_data = false ->
      item p can_update_dataset && item p can_delete_data = true ->
      access_level p = OWNER)
  /\ (item p can_read_data = false ->
      item p can_update_dataset && item p can_delete_data = false ->
      item p can_write_data && item p can_create_table = true ->
      access_level p = WRITER).
Proof.
  unfold access_level.
  destruct (item p can_update_dataset), (item p can_delete_data),
    (item p can_write_data), (item p can_create_table), (item p can_read_data);
    simpl; repeat split; intros; try discriminate;
    repeat match goal with H : _ /\ _ |- _ => destruct H end;
    try discriminate; reflexivity.
Qed.

Lemma C2_none_characterised_witness :
  item all_false can_read_data = false
  /\ access_level
       (mkPermissions true true true true false true false false) = WRITER
  /\ access_level
       (mkPermissions true false true false false false true true) = OWNER.
Proof.
  split; [ | split ].
  - apply (proj1 (proj2 (C2_none_characterised all_false))). reflexivity.
  - apply (proj2 (proj2 (proj2
             (C2_none_characterised
                (mkPermissions true true true true false true false false)))));
      reflexivity.
  - apply (proj1 (proj2 (proj2
             (C2_none_characterised
                (mkPermissions true false true false false false true true)))));
      reflexivity.
Defined.

(** C10: the classification is monotone: flipping any single probe outcome
    from false to true never lowers the derived AccessLevel in the order
    NONE < READER < WRITER < OWNER. *)
Theorem C10_access_level_monotone (p : Permissions) (k : key) :
  item p k = false ->
  level_le (access_level p) (access_level (setitem p k true)).
Proof.
  intros _. apply access_level_pointwise_mono, setitem_true_pointwise_le.
Qed.

Lemma C10_access_level_monotone_witness :
  level_le (access_level all_false)
           (access_level (setitem all_false can_read_data true)).
Proof.
  apply (C10_access_level_monotone all_false can_read_data). reflexivity.
Defined.

(** ** Runs of [check_dataset_permissions] *)

Section Runs.
Context {World : Type}.
Variable respond : World -> api_call -> outcome * World.

Ltac unfold_script :=
  unfold check_dataset_permissions, get_current_user_info, pass, try_except,
    bind, ret, raise, client_call, assign, new_permissions, read_permissions,
    assign_level in *;
  cbn [world log permissions level fst snd] in *.

Ltac answer :=
  match goal with
  | |- context [respond ?w ?c] =>
      destruct (respond w c) as [[|?] ?] eqn:?;
      cbn [world log permissions level fst snd] in *
  end.

Lemma check_shape (f : frame World) :
  exists lg,
    run_shape (fst (check_dataset_permissions respond f)) lg
      (permissions (snd (check_dataset_permissions respond f)))
    /\ log (snd (check_dataset_permissions respond f)) = log f ++ lg
    /\ level (snd (check_dataset_permissions respond f)) = level f
    /\ forall p, fst (check_dataset_permissions respond f) = Returned p ->
                 p = permissions (snd (check_dataset_permissions respond f)).
Proof.
  unfold_script.
  destruct (respond (world f) GetDataset) as [[|e] w1] eqn:Hget;
    cbn [world log permissions level fst snd].
  - repeat answer;
      repeat rewrite <- app_assoc; cbn [app];
      eexists; (split; [ | split; [ reflexivity | split; [ reflexivity | ] ] ]).
    all: try (intros p Hp; injection Hp as <-; reflexivity).
    all: match goal with
         | |- run_shape _ ((_, _) :: (_, ?ol) :: (_, ?orr) :: (_, Ok) :: (_, ?od) :: (_, ?oq) :: (_, ?ou) :: nil) _ =>
             apply (shape_full ol orr Ok od oq ou)
         | |- run_shape _ ((_, _) :: (_, ?ol) :: (_, ?orr) :: (_, Raise ?e) :: (_, ?oq) :: (_, ?ou) :: nil) _ =>
             apply (shape_full ol orr (Raise e) Ok oq ou)
         end.
  - destruct e; cbn [world log permissions level fst snd];
      eexists; (split; [ | split; [ reflexivity | split; [ reflexivity | ] ] ]);
      try (intros p Hp; first [ injection Hp as <-; reflexivity | discriminate Hp ]).
    + apply shape_early. discriminate.
    + apply shape_early. discriminate.
    + apply shape_abort.
Qed.
Lemma run_check_shape (w : World) :
  run_shape (check_result respond w) (check_log respond w)
    (permissions (snd (run_check respond w))).
Proof.
  destruct (check_shape (fresh w)) as [lg [Hshape [Hlog _]]].
  unfold check_result, check_log, run_check.
  rewrite Hlog. exact Hshape.
Qed.

(** The result, the dict and the calls of [check_dataset_permissions]
    depend on the world of the frame only. *)
Lemma check_frame_independent (f : frame World) :
  fst (check_dataset_permissions respond f) = check_result respond (world f)
  /\ permissions (snd (check_dataset_permissions respond f))
     = permissions (snd (run_check respond (world f)))
  /\ log (snd (check_dataset_permissions respond f))
     = log f ++ check_log respond (world f)
  /\ world (snd (check_dataset_permissions respond f))
     = world (snd (run_check respond (world f)))
  /\ level (snd (check_dataset_permissions respond f)) = level f.
Proof.
  unfold check_result, check_log, run_check, fresh.
  unfold_script.
  destruct (respond (world f) GetDataset) as [[|e] w1];
    cbn [world log permissions level fst snd].
  - repeat answer;
      repeat rewrite <- app_assoc; cbn [app];
      repeat split; reflexivity.
  - destruct e; cbn [world log permissions level fst snd];
      repeat split; reflexivity.
Qed.

(** Whatever frame it starts from, a report that returns has derived its
    level from the dict it holds, and returns whether that level is not
    NONE. *)
Lemma report_derives_level (f0 f : frame World) (b : bool) :
  generate_access_report respond f0 = (Returned b, f) ->
  level f = Some (access_level (permissions f))
  /\ b = negb (AccessLevel_eqb (access_level (permissions f)) NONE).
Proof.
  unfold generate_access_report, get_current_user_info, pass, try_except,
    bind, ret, client_call, assign_level.
  cbn [world log permissions level].
  destruct (respond (world f0) NewClient) as [[|e1] w1];
    cbn [world log permissions level fst snd]; [ | discriminate ].
  destruct (respond w1 AuthDefault) as [[|e2] w2];
    cbn [world log permissions level fst snd];
    match goal with
    | |- context [check_dataset_permissions respond ?g] =>
        pose proof (check_shape g) as [lg [_ [_ [_ Hret]]]];
        destruct (check_dataset_permissions respond g) as [[p|e3] f3]
    end;
    cbn [fst snd] in Hret;
    intros H; inversion H; subst; clear H;
    cbn [permissions level];
    rewrite <- (Hret p eq_refl); split; reflexivity.
Qed.

(** The three ways a report run from a fresh frame can go, by the answers
    of the client. *)
Lemma report_run_cases (w : World) :
  match respond w NewClient with
  | (Raise e, w1) =>
      generate_access_report respond (fresh w)
      = (Raised e, mkFrame w1 [(NewClient, Raise e)] all_false None)
  | (Ok, w1) =>
      match check_result respond (snd (respond w1 AuthDefault)) with
      | Returned p =>
          exists f,
            generate_access_report respond (fresh w)
            = (Returned (negb (AccessLevel_eqb (access_level p) NONE)), f)
            /\ permissions f = p
            /\ level f = Some (access_level p)
      | Raised e =>
          exists f,
            generate_access_report respond (fresh w) = (Raised e, f)
            /\ level f = None
      end
  end.
Proof.
  unfold generate_access_report, get_current_user_info, pass, try_except,
    bind, ret, client_call, assign_level, fresh.
  cbn [world log permissions level].
  destruct (respond w NewClient) as [[|e1] w1];
    cbn [world log permissions level fst snd]; [ | reflexivity ].
  destruct (respond w1 AuthDefault) as [[|e2] w2];
    cbn [world log permissions level fst snd];
    match goal with
    | |- context [check_dataset_permissions respond ?g] =>
        destruct (check_frame_independent g) as [Hres [_ [_ [_ Hlevel]]]];
        destruct (check_shape g) as [lg [_ [_ [_ Hret]]]];
        cbn [world level] in Hres, Hlevel;
        rewrite <- Hres;
        destruct (check_dataset_permissions respond g) as [[p|e3] f3]
    end;
    cbn [fst snd] in *;
    eexists; (split; [ reflexivity | ]); cbn [permissions level];
    first [ exact Hlevel
          | split; [ symmetry; apply Hret; reflexivity | reflexivity ] ].
Qed.

(** C3 (amended): a failure of any probe after the dataset-metadata probe
    (table listing, read, create/write, delete, update), whatever the
    error, leaves the run returning normally with every later probe
    attempted and its outcome recorded in the returned dict; a failure of
    the dataset-metadata probe itself ends the run with no later probe
    attempted, and on not-found or forbidden the all-false dict is
    returned. *)
Theorem C3_isolation_after_dataset_probe (w : World) (c : api_call) (e : exn) :
  In c battery ->
  In (c, Raise e) (check_log respond w) ->
  (c <> GetDataset ->
   exists p,
     check_result respond w = Returned p
     /\ forall c', In c' (subsequent c) ->
          exists o, In (c', o) (check_log respond w)
                    /\ forall k, In k (keys_of c') -> item p k = is_ok o)
  /\ (c = GetDataset ->
      (forall c', In c' (subsequent c) ->
                  ~ In c' (map fst (check_log respond w)))
      /\ (e <> OtherError -> check_result respond w = Returned all_false)).
Proof.
  intros Hc Hin.
  destruct (run_check_shape w) as [e0 He0 | | ol orr oc od oq ou].
  - pick_entry. split; [ intros Hne; contradiction Hne; reflexivity | ].
    intros _. split; [ | reflexivity ].
    intros c' Hc' Hlog. cbn in Hc', Hlog. pick_entry.
  - pick_entry. split; [ intros Hne; contradiction Hne; reflexivity | ].
    intros _. split; [ | intros Hne; contradiction Hne; reflexivity ].
    intros c' Hc' Hlog. cbn in Hc', Hlog. pick_entry.
  - split.
    + intros Hne. eexists. split; [ reflexivity | ].
      intros c' Hc'.
      destruct oc as [|ec]; cbn [cleanup_log app] in *;
        cbn in Hc; pick_entry; cbn in Hc'; pick_entry;
        (eexists; split; [ find_entry | intros k Hk; cbn in Hk; pick_entry; reflexivity ]).
    + intros ->. exfalso.
      destruct oc as [|ec]; cbn [cleanup_log app] in *; pick_entry.
Qed.

(** C4 (amended): an error raised by any call after the dataset-metadata
    probe (table listing, read, create-as-select, cleanup, delete, update)
    is caught at that probe's boundary: the run returns normally, the keys
    of a failed probe are false, and every later probe is attempted.  At
    the dataset-metadata probe, not-found and forbidden are caught and end
    the run at once with the all-false dict; any other error raised there
    propagates to the caller. *)
Theorem C4_errors_caught_after_dataset_probe
  (w : World) (c : api_call) (e : exn) :
  In (c, Raise e) (check_log respond w) ->
  (c <> GetDataset ->
   exists p,
     check_result respond w = Returned p
     /\ (forall k, In k (keys_of c) -> item p k = false)
     /\ forall c', In c' (subsequent c) ->
          In c' (map fst (check_log respond w)))
  /\ (c = GetDataset -> e <> OtherError ->
      check_result respond w = Returned all_false
      /\ check_log respond w = [(GetDataset, Raise e)])
  /\ (c = GetDataset -> e = OtherError ->
      check_result respond w = Raised OtherError).
Proof.
  intros Hin.
  destruct (run_check_shape w) as [e0 He0 | | ol orr oc od oq ou].
  - pick_entry. split; [ intros Hne; contradiction Hne; reflexivity | ].
    split; [ intros _ _; split; reflexivity | ].
    intros _ Habs. contradiction (He0 Habs).
  - pick_entry. split; [ intros Hne; contradiction Hne; reflexivity | ].
    split; [ intros _ Hne; contradiction Hne; reflexivity | reflexivity ].
  - assert (Hc : c <> GetDataset).
    { intros ->. destruct oc as [|ec]; cbn [cleanup_log app] in *; pick_entry. }
    split; [ | split; intros Habs; contradiction (Hc Habs) ].
    intros _. eexists. split; [ reflexivity | ].
    destruct oc as [|ec]; cbn [cleanup_log app] in *; pick_entry;
      (split;
       [ intros k Hk; cbn in Hk; pick_entry; reflexivity
       | intros c' Hc'; cbn in Hc'; pick_entry; find_entry ]).
Qed.

(** C5 (amended): the cleanup call (delete-if-exists of access_test_temp)
    is attempted exactly when the create-as-select operation succeeded;
    when the create-as-select fails, or the probe is never reached, no
    cleanup is attempted. *)
Theorem C5_cleanup_iff_created (w : World) :
  In DeleteTable (map fst (check_log respond w))
  <-> In (QueryCreate, Ok) (check_log respond w).
Proof.
  destruct (run_check_shape w) as [e0 He0 | | ol orr oc od oq ou].
  - split; intros H; cbn in H; pick_entry.
  - split; intros H; cbn in H; pick_entry.
  - destruct oc as [|ec]; cbn [cleanup_log app];
      split; intros H; cbn in H; pick_entry; find_entry.
Qed.

(** C6: when the create-as-select succeeds and the cleanup deletion then
    fails, the run still returns, and can_create_table and can_write_data
    are true in the returned dict. *)
Theorem C6_cleanup_failure_swallowed (w : World) (e : exn) :
  In (QueryCreate, Ok) (check_log respond w) ->
  In (DeleteTable, Raise e) (check_log respond w) ->
  exists p,
    check_result respond w = Returned p
    /\ item p can_create_table = true
    /\ item p can_write_data = true.
Proof.
  intros Hcreate Hclean.
  destruct (run_check_shape w) as [e0 He0 | | ol orr oc od oq ou].
  - pick_entry.
  - pick_entry.
  - destruct oc as [|ec]; cbn [cleanup_log app] in *.
    + eexists. split; [ reflexivity | split; reflexivity ].
    + pick_entry.
Qed.

(** C9: the dict a run leaves, and so every dict a run returns, has
    can_create_table equal to can_write_data and dataset_exists equal to
    can_get_dataset, on the complete path, after any probe failure, and on
    the early return. *)
Theorem C9_pairing_invariant (w : World) :
  paired (permissions (snd (run_check respond w)))
  /\ forall p, check_result respond w = Returned p -> paired p.
Proof.
  pose proof (check_shape (fresh w)) as [lg [_ [_ [_ Hret]]]].
  fold (run_check respond w) in Hret.
  assert (Hp : paired (permissions (snd (run_check respond w)))).
  { destruct (run_check_shape w); split; reflexivity. }
  split; [ exact Hp | ].
  intros p Hres. rewrite (Hret p Hres). exact Hp.
Qed.

(** C7: [main] always hands an exit status to [sys.exit].  The derived
    level is the classification of the dict that [check_dataset_permissions]
    returned in this run; the exit status is 0 exactly when a level was
    derived and is not NONE, it is 1 when the derived level is NONE, and it
    is 1 when report generation aborted with an error (no level is derived
    then), in particular when the client could not be constructed. *)
Theorem C7_exit_status (w : World) :
  exists (code : Z) (f : frame World),
    main respond (fresh w) = (Returned code, f)
    /\ (code = 0%Z <-> exists l, level f = Some l /\ l <> NONE)
    /\ (level f = Some NONE -> code = 1%Z)
    /\ ((exists e f', generate_access_report respond (fresh w) = (Raised e, f'))
        -> code = 1%Z)
    /\ (is_ok (fst (respond w NewClient)) = false -> code = 1%Z)
    /\ (forall w1 o w2 p,
           respond w NewClient = (Ok, w1) ->
           respond w1 AuthDefault = (o, w2) ->
           check_result respond w2 = Returned p ->
           permissions f = p
           /\ level f = Some (access_level p)
           /\ code = if AccessLevel_eqb (access_level p) NONE
                     then 1%Z else 0%Z)
    /\ (forall w1 o w2 e,
           respond w NewClient = (Ok, w1) ->
           respond w1 AuthDefault = (o, w2) ->
           check_result respond w2 = Raised e ->
           level f = None /\ code = 1%Z)
    /\ (forall e w1,
           respond w NewClient = (Raise e, w1) ->
           level f = None /\ code = 1%Z).
Proof.
  pose proof (report_run_cases w) as Hcases.
  unfold main, try_except, bind, ret.
  destruct (respond w NewClient) as [[|e1] w1] eqn:HN; cbn [fst snd is_ok].
  - destruct (respond w1 AuthDefault) as [o w2] eqn:HA. cbn [snd] in Hcases.
    destruct (check_result respond w2) as [p|e3] eqn:HC;
      destruct Hcases as [f [Hgen Hf]]; rewrite Hgen.
    + destruct Hf as [Hp Hl].
      exists (if negb (AccessLevel_eqb (access_level p) NONE)
              then 0%Z else 1%Z), f.
      split; [ reflexivity | ].
      rewrite Hl.
      assert (Hfirst : forall w1' o' w2' p',
                 (Ok, w1) = (Ok, w1') ->
                 respond w1' AuthDefault = (o', w2') ->
                 check_result respond w2' = Returned p' -> p' = p).
      { intros w1' o' w2' p' H1 H2 H3. inversion H1. subst w1'.
        rewrite HA in H2. inversion H2. subst.
        rewrite HC in H3. inversion H3. reflexivity. }
      assert (Hsecond : forall w1' o' w2' e',
                 (Ok, w1) = (Ok, w1') ->
                 respond w1' AuthDefault = (o', w2') ->
                 check_result respond w2' = Raised e' -> False).
      { intros w1' o' w2' e' H1 H2 H3. inversion H1. subst w1'.
        rewrite HA in H2. inversion H2. subst.
        rewrite HC in H3. discriminate H3. }
      destruct (access_level p) eqn:Hlv; cbn [AccessLevel_eqb negb];
        repeat split; intros;
        try discriminate; try reflexivity;
        try (eexists; split; [ reflexivity | discriminate ]);
        repeat match goal with
               | H : exists _, _ |- _ => destruct H
               | H : _ /\ _ |- _ => destruct H
               | H1 : (Ok, w1) = (Ok, _), H2 : respond _ AuthDefault = _,
                 H3 : check_result respond _ = Returned _ |- _ =>
                   rewrite (Hfirst _ _ _ _ H1 H2 H3) in *; clear H1 H2 H3
               | H1 : (Ok, w1) = (Ok, _), H2 : respond _ AuthDefault = _,
                 H3 : check_result respond _ = Raised _ |- _ =>
                   destruct (Hsecond _ _ _ _ H1 H2 H3)
               end;
        try rewrite Hlv; try reflexivity; try assumption; congruence.
    + exists 1%Z, f.
      split; [ reflexivity | ].
      rewrite Hf.
      assert (Hfirst : forall w1' o' w2' p',
                 (Ok, w1) = (Ok, w1') ->
                 respond w1' AuthDefault = (o', w2') ->
                 check_result respond w2' = Returned p' -> False).
      { intros w1' o' w2' p' H1 H2 H3. inversion H1. subst w1'.
        rewrite HA in H2. inversion H2. subst.
        rewrite HC in H3. discriminate H3. }
      repeat split; intros; try discriminate; try reflexivity;
        repeat match goal with
               | H : exists _, _ |- _ => destruct H
               | H : _ /\ _ |- _ => destruct H
               | H1 : (Ok, w1) = (Ok, _), H2 : respond _ AuthDefault = _,
                 H3 : check_result respond _ = Returned _ |- _ =>
                   destruct (Hfirst _ _ _ _ H1 H2 H3)
               end;
        congruence.
  - rewrite Hcases. cbn [level].
    exists 1%Z. eexists.
    split; [ reflexivity | ].
    cbn [level].
    repeat split; intros; try discriminate; try reflexivity;
      repeat match goal with
             | H : exists _, _ |- _ => destruct H
             | H : _ /\ _ |- _ => destruct H
             end;
      congruence.
Qed.
End Runs.

(** C8: the classification is deterministic.  Equal assignments of the
    eight probe booleans are classified alike; the level depends on nothing
    but the five keys the cascade reads; and in any two runs of the report,
    against any clients and from any frames, that end with dicts holding
    equal assignments, the derived level is the classification of the dict
    and is the same in both runs, as is the returned flag. *)
Theorem C8_access_level_deterministic :
  (forall p q : Permissions,
      same_assignment p q -> access_level p = access_level q)
  /\ (forall (W1 W2 : Type)
             (respond1 : W1 -> api_call -> outcome * W1)
             (respond2 : W2 -> api_call -> outcome * W2)
             (s1 f1 : frame W1) (s2 f2 : frame W2) (b1 b2 : bool),
         generate_access_report respond1 s1 = (Returned b1, f1) ->
         generate_access_report respond2 s2 = (Returned b2, f2) ->
         same_assignment (permissions f1) (permissions f2) ->
         level f1 = Some (access_level (permissions f1))
         /\ level f2 = level f1
         /\ b2 = b1)
  /\ (forall p q : Permissions,
         item p can_update_dataset = item q can_update_dataset ->
         item p can_delete_data = item q can_delete_data ->
         item p can_write_data = item q can_write_data ->
         item p can_create_table = item q can_create_table ->
         item p can_read_data = item q can_read_data ->
         access_level p = access_level q).
Proof.
  assert (Hsame : forall p q : Permissions,
             same_assignment p q -> access_level p = access_level q).
  { intros p q H. apply access_level_reads_five; apply H. }
  split; [ exact Hsame | split ].
  - intros W1 W2 respond1 respond2 s1 f1 s2 f2 b1 b2 H1 H2 Hdict.
    destruct (report_derives_level respond1 s1 f1 b1 H1) as [Hl1 Hb1].
    destruct (report_derives_level respond2 s2 f2 b2 H2) as [Hl2 Hb2].
    pose proof (Hsame _ _ Hdict) as Hlevel.
    split; [ exact Hl1 | split ].
    + rewrite Hl1, Hl2, Hlevel. reflexivity.
    + rewrite Hb1, Hb2, Hlevel. reflexivity.
  - exact access_level_reads_five.
Qed.

Lemma C8_access_level_deterministic_witness :
  level (snd (generate_access_report quota_client (fresh 9)))
  = level (snd (generate_access_report (scripted all_granted) (fresh tt))).
Proof.
  refine (proj1 (proj2
            (proj1 (proj2 C8_access_level_deterministic)
               unit nat (scripted all_granted) quota_client
               (fresh tt)
               (snd (generate_access_report (scripted all_granted) (fresh tt)))
               (fresh 9)
               (snd (generate_access_report quota_client (fresh 9)))
               true true _ _ _))).
  - vm_compute. reflexivity.
  - vm_compute. reflexivity.
  - intros k. destruct k; reflexivity.
Defined.

Lemma C7_exit_status_witness :
  (exists f,
      main (scripted all_granted) (fresh tt) = (Returned 0%Z, f)
      /\ level f = Some OWNER)
  /\ (exists f,
         main (scripted dataset_missing) (fresh tt) = (Returned 1%Z, f)
         /\ level f = Some NONE).
Proof.
  split.
  - destruct (C7_exit_status (scripted all_granted) tt)
      as [code [f [Hmain [_ [_ [_ [_ [Hret _]]]]]]]].
    destruct (Hret tt Ok tt
                (mkPermissions true true true true true true true true)
                eq_refl eq_refl eq_refl) as [_ [Hl Hc]].
    exists f. split; [ rewrite Hmain, Hc; reflexivity | exact Hl ].
  - destruct (C7_exit_status (scripted dataset_missing) tt)
      as [code [f [Hmain [_ [_ [_ [_ [Hret _]]]]]]]].
    destruct (Hret tt Ok tt all_false eq_refl eq_refl eq_refl) as [_ [Hl Hc]].
    exists f. split; [ rewrite Hmain, Hc; reflexivity | exact Hl ].
Defined.

(** ** The amended statements at concrete clients *)

Lemma C3_isolation_after_dataset_probe_witness :
  exists p,
    check_result (scripted listing_denied) tt = Returned p
    /\ forall c', In c' (subsequent ListTables) ->
         exists o, In (c', o) (check_log (scripted listing_denied) tt)
                   /\ forall k, In k (keys_of c') -> item p k = is_ok o.
Proof.
  apply (proj1 (C3_isolation_after_dataset_probe
                  (scripted listing_denied) tt ListTables Forbidden
                  ltac:(vm_compute; find_entry)
                  ltac:(vm_compute; find_entry))).
  discriminate.
Defined.

Lemma C4_errors_caught_after_dataset_probe_witness :
  exists p,
    check_result quota_client 3 = Returned p
    /\ (forall k, In k (keys_of QueryCreate) -> item p k = false)
    /\ forall c', In c' (subsequent QueryCreate) ->
         In c' (map fst (check_log quota_client 3)).
Proof.
  apply (proj1 (C4_errors_caught_after_dataset_probe
                  quota_client 3 QueryCreate OtherError
                  ltac:(vm_compute; find_entry))).
  discriminate.
Defined.

Lemma C6_cleanup_failure_swallowed_witness :
  exists p,
    check_result (scripted cleanup_fails) tt = Returned p
    /\ item p can_create_table = true
    /\ item p can_write_data = true.
Proof.
  apply (C6_cleanup_failure_swallowed (scripted cleanup_fails) tt OtherError).
  - vm_compute. find_entry.
  - vm_compute. find_entry.
Defined.

Lemma C9_pairing_invariant_witness :
  paired (mkPermissions true true true true true true false false).
Proof.
  apply (proj2 (C9_pairing_invariant quota_client 4)).
  vm_compute. reflexivity.
Defined.

(** ** The statements of the specification that fail *)

(** C3 as stated is refuted: when the dataset-metadata probe fails with
    not-found, the run returns at once and the table listing is never
    attempted. *)
Lemma C3_isolation_fails_on_missing_dataset :
  ~ isolation (scripted dataset_missing) tt.
Proof.
  intros H.
  destruct (H GetDataset NotFound) as [p [_ Hlater]].
  - vm_compute. find_entry.
  - vm_compute. find_entry.
  - destruct (Hlater ListTables) as [o [Hin _]].
    + vm_compute. find_entry.
    + vm_compute in Hin. pick_entry.
Qed.

(** C4 as stated is refuted: a transient error raised by the
    dataset-metadata probe is not caught; the run raises it to the caller. *)
Lemma C4_transient_dataset_error_propagates :
  ~ only_construction_errors_propagate (scripted dataset_times_out) tt.
Proof.
  intros H.
  destruct (H GetDataset OtherError) as [p [Hres _]].
  - discriminate.
  - vm_compute. find_entry.
  - vm_compute in Hres. discriminate Hres.
Qed.

(** C5 as stated is refuted: when the create-as-select is denied the probe
    has executed, yet no cleanup call is made. *)
Lemma C5_no_cleanup_when_create_fails :
  ~ cleanup_always (scripted create_denied) tt.
Proof.
  intros H.
  assert (Hin : In DeleteTable (map fst (check_log (scripted create_denied) tt))).
  { apply H. vm_compute. find_entry. }
  vm_compute in Hin. pick_entry.
Qed.

(** ** Scenarios *)

Example dataset_missing_run :
  run_check (scripted dataset_missing) tt
  = (Returned all_false,
     mkFrame tt [(GetDataset, Raise NotFound)] all_false None).
Proof. reflexivity. Qed.

Example dataset_missing_exit :
  fst (main (scripted dataset_missing) (fresh tt)) = Returned 1%Z.
Proof. reflexivity. Qed.

Example all_granted_run :
  check_result (scripted all_granted) tt
  = Returned (mkPermissions true true true true true true true true)
  /\ map fst (check_log (scripted all_granted) tt) = program_order.
Proof. split; reflexivity. Qed.

Example all_granted_exit :
  main (scripted all_granted) (fresh tt)
  = (Returned 0%Z,
     mkFrame tt
       [(NewClient, Ok); (AuthDefault, Ok); (GetDataset, Ok); (ListTables, Ok);
        (QueryRead, Ok); (QueryCreate, Ok); (DeleteTable, Ok);
        (QueryDelete, Ok); (UpdateDataset, Ok)]
       (mkPermissions true true true true true true true true)
       (Some OWNER)).
Proof. reflexivity. Qed.

Example dataset_times_out_run :
  check_result (scripted dataset_times_out) tt = Raised OtherError
  /\ fst (main (scripted dataset_times_out) (fresh tt)) = Returned 1%Z.
Proof. split; reflexivity. Qed.

Example create_denied_log :
  check_log (scripted create_denied) tt
  = [(GetDataset, Ok); (ListTables, Ok); (QueryRead, Ok);
     (QueryCreate, Raise Forbidden); (QueryDelete, Ok); (UpdateDataset, Ok)].
Proof. reflexivity. Qed.

Example cleanup_fails_run :
  check_result (scripted cleanup_fails) tt
  = Returned (mkPermissions true true true true true true true true)
  /\ In (DeleteTable, Raise OtherError) (check_log (scripted cleanup_fails) tt).
Proof. split; [ reflexivity | vm_compute; find_entry ]. Qed.

Example quota_exhausted_run :
  run_check quota_client 4
  = (Returned (mkPermissions true true true true true true false false),
     mkFrame 0
       [(GetDataset, Ok); (ListTables, Ok); (QueryRead, Ok); (QueryCreate, Ok);
        (DeleteTable, Raise OtherError); (QueryDelete, Raise OtherError);
        (UpdateDataset, Raise OtherError)]
       (mkPermissions true true true true true true false false) None).
Proof. reflexivity. Qed.

Example writer_without_read :
  access_level (mkPermissions true true true true false true false false)
  = WRITER.
Proof. reflexivity. Qed.

(** ** Further properties of script 04 *)

Section MoreRuns.
Context {World : Type}.
Variable respond : World -> api_call -> outcome * World.

(** X1: [check_dataset_permissions] raises only when the dataset-metadata
    probe raised an error other than not-found and forbidden; the error is
    passed on unchanged and no other call has been made. *)
Theorem check_raises_only_on_dataset_probe (w : World) (e : exn) :
  check_result respond w = Raised e
  <-> (e = OtherError
       /\ check_log respond w = [(GetDataset, Raise OtherError)]).
Proof.
  destruct (run_check_shape respond w) as [e0 He0 | | ol orr oc od oq ou].
  - split; [ discriminate | ].
    intros [-> Hlog]. inversion Hlog. subst. contradiction He0. reflexivity.
  - split.
    + intros H. inversion H. split; reflexivity.
    + intros [-> _]. reflexivity.
  - split; [ discriminate | ].
    intros [_ Hlog]. discriminate Hlog.
Qed.

(** X2: in a returned dict a key is true exactly when the call of its
    probe was made and answered normally. *)
Theorem key_true_iff_call_succeeded (w : World) (p : Permissions) (k : key) :
  check_result respond w = Returned p ->
  (item p k = true <-> In (call_of k, Ok) (check_log respond w)).
Proof.
  destruct (run_check_shape respond w) as [e0 He0 | | ol orr oc od oq ou];
    intros Hres; inversion Hres; subst; clear Hres.
  - destruct k; cbn; split; intros H; pick_entry.
  - destruct k, ol, orr, oc, oq, ou; cbn; split; intros H;
      pick_entry; try reflexivity; find_entry.
Qed.

(** X3: the calls of a run are made in program order, each at most once,
    starting with the dataset-metadata probe; a run makes between one and
    seven calls. *)
Theorem check_calls_in_program_order (w : World) :
  subsequence (map fst (check_log respond w)) program_order = true
  /\ NoDup (map fst (check_log respond w))
  /\ (exists o rest, check_log respond w = (GetDataset, o) :: rest)
  /\ 1 <= List.length (check_log respond w) <= 7.
Proof.
  destruct (run_check_shape respond w) as [e0 He0 | | ol orr oc od oq ou];
    try destruct oc; cbn;
    (split; [ reflexivity | split; [ | split; [ do 2 eexists; reflexivity | lia ] ] ]);
    repeat (constructor; [ cbn; intros H; pick_entry | ]); constructor.
Qed.

(** X4: when dataset_exists is false in the returned dict, every key is
    false, the level derived from it is NONE, and the dataset-metadata call
    is the only call that was made. *)
Theorem no_dataset_no_permissions (w : World) (p : Permissions) :
  check_result respond w = Returned p ->
  item p dataset_exists = false ->
  p = all_false
  /\ access_level p = NONE
  /\ map fst (check_log respond w) = [GetDataset].
Proof.
  destruct (run_check_shape respond w) as [e0 He0 | | ol orr oc od oq ou];
    intros Hres Hno; inversion Hres; subst; clear Hres.
  - repeat split; reflexivity.
  - discriminate Hno.
Qed.

(** X6: the result, the dict and the calls of [check_dataset_permissions]
    do not depend on the dict, the log or the level already in the frame:
    every invocation starts from a fresh all-false dict and only appends to
    the log. *)
Theorem check_ignores_previous_frame (f : frame World) :
  fst (check_dataset_permissions respond f) = check_result respond (world f)
  /\ permissions (snd (check_dataset_permissions respond f))
     = permissions (snd (run_check respond (world f)))
  /\ log (snd (check_dataset_permissions respond f))
     = log f ++ check_log respond (world f)
  /\ world (snd (check_dataset_permissions respond f))
     = world (snd (run_check respond (world f)))
  /\ level (snd (check_dataset_permissions respond f)) = level f.
Proof.
  unfold check_result, check_log, run_check, fresh.
  unfold check_dataset_permissions, pass, try_except, bind, ret, raise,
    client_call, assign, new_permissions, read_permissions.
  cbn [world log permissions level fst snd].
  destruct (respond (world f) GetDataset) as [[|e] w1];
    cbn [world log permissions level fst snd].
  - repeat match goal with
           | |- context [respond ?w ?c] =>
               destruct (respond w c) as [[|?] ?];
               cbn [world log permissions level fst snd]
           end;
      repeat rewrite <- app_assoc; cbn [app];
      repeat split; reflexivity.
  - destruct e; cbn [world log permissions level fst snd];
      repeat split; reflexivity.
Qed.
End MoreRuns.

(** X5: the dicts [check_dataset_permissions] can return are exactly the
    all-false dict and the dicts with dataset_exists and can_get_dataset true
    and can_create_table equal to can_write_data: every run returns such a
    dict, and each of them is returned under some answers of the client. *)
Theorem returned_dicts_characterised :
  (forall (World : Type) (respond : World -> api_call -> outcome * World)
          (w : World) (p : Permissions),
      check_result respond w = Returned p -> returnable p)
  /\ (forall p : Permissions,
         returnable p ->
         check_result (scripted (answers_for p)) tt = Returned p).
Proof.
  split.
  - intros World respond w p Hres.
    destruct (run_check_shape respond w) as [e0 He0 | | ol orr oc od oq ou];
      inversion Hres; subst; clear Hres.
    + left. reflexivity.
    + right. repeat split; reflexivity.
  - intros [e l g c r wr d u] [Hp | [He [Hg Hcw]]].
    + inversion Hp. subst. reflexivity.
    + cbn in He, Hg, Hcw. subst e g c.
      destruct l, r, wr, d, u; reflexivity.
Qed.

Lemma returned_dicts_characterised_witness :
  check_result
    (scripted
       (answers_for (mkPermissions true false true true false true false false)))
    tt
  = Returned (mkPermissions true false true true false true false false).
Proof.
  apply (proj2 returned_dicts_characterised).
  right. repeat split; reflexivity.
Defined.

Lemma key_true_iff_call_succeeded_witness :
  item (mkPermissions true true true true true true false false) can_write_data
  = true
  <-> In (call_of can_write_data, Ok) (check_log quota_client 4).
Proof.
  apply (key_true_iff_call_succeeded quota_client 4). reflexivity.
Defined.

Lemma no_dataset_no_permissions_witness :
  all_false = all_false
  /\ access_level all_false = NONE
  /\ map fst (check_log (scripted dataset_missing) tt) = [GetDataset].
Proof.
  apply (no_dataset_no_permissions (scripted dataset_missing) tt all_false);
    reflexivity.
Defined.

(** ** Runs of [generate_access_report] and [main] *)

Section ReportProofs.
Context {World : Type}.
Variable respond : World -> api_call -> outcome * World.

Lemma run_report_shape (w : World) :
  report_shape (fst (run_report respond w)) (log (snd (run_report respond w)))
    (permissions (snd (run_report respond w)))
    (level (snd (run_report respond w))).
Proof.
  unfold run_report, generate_access_report, get_current_user_info, pass,
    try_except, bind, ret, client_call, assign_level, fresh.
  cbn [world log permissions level].
  destruct (respond w NewClient) as [[|e1] w1];
    cbn [world log permissions level fst snd app];
    [ | apply report_no_client ].
  destruct (respond w1 AuthDefault) as [[|e2] w2];
    cbn [world log permissions level fst snd app];
    match goal with
    | |- context [check_dataset_permissions respond ?f0] =>
        destruct (check_shape respond f0) as [lg [Hshape [Hlog [Hlevel Hret]]]];
        destruct (check_dataset_permissions respond f0) as [[p|e3] f3]
    end;
    cbn [world log permissions level fst snd app] in *;
    rewrite Hlog;
    [ rewrite <- (Hret p eq_refl) in *; apply report_done; exact Hshape
    | rewrite Hlevel; inversion Hshape as [ | Hr Hl Hp | ]; apply report_aborted
    | rewrite <- (Hret p eq_refl) in *; apply report_done; exact Hshape
    | rewrite Hlevel; inversion Hshape as [ | Hr Hl Hp | ]; apply report_aborted ].
Qed.

Lemma run_main_frame (w : World) :
  snd (run_main respond w) = snd (run_report respond w)
  /\ exit_status respond w
     = match fst (run_report respond w) with
       | Returned true => Returned 0%Z
       | _ => Returned 1%Z
       end.
Proof.
  unfold exit_status, run_main, run_report, main, try_except, bind, ret.
  destruct (generate_access_report respond (fresh w)) as [[[|]|e] f];
    split; reflexivity.
Qed.
Lemma run_main_shape (w : World) :
  exists r,
    report_shape r (main_log respond w)
      (permissions (snd (run_main respond w)))
      (level (snd (run_main respond w)))
    /\ exit_status respond w
       = match r with
         | Returned true => Returned 0%Z
         | _ => Returned 1%Z
         end.
Proof.
  destruct (run_main_frame w) as [Hframe Hexit].
  exists (fst (run_report respond w)).
  unfold main_log. rewrite Hframe.
  split; [ apply run_report_shape | exact Hexit ].
Qed.

(** X7: [generate_access_report] raises exactly when the client could not
    be constructed or the dataset-metadata probe raised an error other than
    not-found and forbidden; no other failure reaches its caller. *)
Theorem report_raises_iff (w : World) (e : exn) :
  fst (run_report respond w) = Raised e
  <-> (In (NewClient, Raise e) (log (snd (run_report respond w)))
       \/ (e = OtherError
           /\ In (GetDataset, Raise OtherError)
                (log (snd (run_report respond w))))).
Proof.
  destruct (run_report_shape w) as [e0 | oa | oa p lg Hshape].
  - split.
    + intros H. inversion H. left. find_entry.
    + intros [H | [_ H]]; pick_entry. reflexivity.
  - split.
    + intros H. inversion H. right. split; [ reflexivity | find_entry ].
    + intros [H | [-> _]]; pick_entry. reflexivity.
  - split; [ discriminate | ].
    inversion Hshape as [e0 He0 | | ol orr oc od oq ou]; subst;
      try destruct oc; cbn [cleanup_log app];
      intros [H | [_ H]]; pick_entry;
      contradiction He0; reflexivity.
Qed.

(** X9: the exit status is 0 exactly when the client answered normally to
    the read query, or to the create-as-select query, or to both the delete
    query and the dataset update. *)
Theorem exit_zero_iff_call_evidence (w : World) :
  exit_status respond w = Returned 0%Z
  <-> (In (QueryRead, Ok) (main_log respond w)
       \/ In (QueryCreate, Ok) (main_log respond w)
       \/ (In (QueryDelete, Ok) (main_log respond w)
           /\ In (UpdateDataset, Ok) (main_log respond w))).
Proof.
  destruct (run_main_shape w) as [r [Hshape ->]].
  destruct Hshape as [e0 | oa | oa p lg Hshape].
  - split; [ discriminate | ].
    intros [H | [H | [H _]]]; pick_entry.
  - split; [ discriminate | ].
    intros [H | [H | [H _]]]; pick_entry.
  - inversion Hshape as [e0 He0 | | ol orr oc od oq ou]; subst.
    + split; [ discriminate | ].
      intros [H | [H | [H _]]]; pick_entry.
    + destruct ol, orr, oc, oq, ou; cbn; split;
        try discriminate; try reflexivity;
        try (intros _;
             first [ solve [ left; find_entry ]
                   | solve [ right; left; find_entry ]
                   | solve [ right; right; split; find_entry ] ]);
        intros [H | [H | [H H']]]; pick_entry.
Qed.

(** X10: a whole report makes its calls in program order (client
    construction, identity lookup, then the probes), each at most once,
    starting with the construction of the client; it makes between one and
    nine calls. *)
Theorem main_calls_in_program_order (w : World) :
  subsequence (map fst (main_log respond w)) report_order = true
  /\ NoDup (map fst (main_log respond w))
  /\ (exists o rest, main_log respond w = (NewClient, o) :: rest)
  /\ 1 <= List.length (main_log respond w) <= 9.
Proof.
  destruct (run_main_shape w) as [r [Hshape _]].
  destruct Hshape as [e0 | oa | oa p lg Hshape];
    [ | | inversion Hshape as [e0 He0 | | ol orr oc od oq ou]; subst;
          try destruct oc ];
    cbn;
    (split; [ reflexivity | split; [ | split; [ do 2 eexists; reflexivity | lia ] ] ]);
    repeat (constructor; [ cbn; intros H; pick_entry | ]); constructor.
Qed.
End ReportProofs.

(** Two clients that answer the probe calls alike make
    [check_dataset_permissions] behave alike. *)
Lemma check_agrees {World : Type}
  (respond1 respond2 : World -> api_call -> outcome * World)
  (f : frame World) :
  (forall w c, In c program_order -> respond1 w c = respond2 w c) ->
  check_dataset_permissions respond1 f = check_dataset_permissions respond2 f.
Proof.
  intros Hsame.
  assert (Hg := fun w => Hsame w GetDataset ltac:(find_entry)).
  assert (Hl := fun w => Hsame w ListTables ltac:(find_entry)).
  assert (Hr := fun w => Hsame w QueryRead ltac:(find_entry)).
  assert (Hc := fun w => Hsame w QueryCreate ltac:(find_entry)).
  assert (Hd := fun w => Hsame w DeleteTable ltac:(find_entry)).
  assert (Hq := fun w => Hsame w QueryDelete ltac:(find_entry)).
  assert (Hu := fun w => Hsame w UpdateDataset ltac:(find_entry)).
  clear Hsame.
  unfold check_dataset_permissions, pass, try_except, bind, ret, raise,
    client_call, assign, new_permissions, read_permissions.
  cbn [world log permissions level fst snd].
  rewrite Hg.
  destruct (respond2 (world f) GetDataset) as [[|e] w1];
    cbn [world log permissions level fst snd];
    [ | destruct e; cbn [world log permissions level fst snd]; reflexivity ].
  rewrite Hl.
  destruct (respond2 w1 ListTables) as [[|?] w2];
    cbn [world log permissions level fst snd];
    rewrite Hr;
    destruct (respond2 w2 QueryRead) as [[|?] w3];
    cbn [world log permissions level fst snd];
    rewrite Hc;
    destruct (respond2 w3 QueryCreate) as [[|?] w4];
    cbn [world log permissions level fst snd];
    try (rewrite Hd;
         destruct (respond2 w4 DeleteTable) as [[|?] w5];
         cbn [world log permissions level fst snd]);
    rewrite Hq;
    match goal with
    | |- context [respond2 ?w QueryDelete] =>
        destruct (respond2 w QueryDelete) as [[|?] w6]
    end;
    cbn [world log permissions level fst snd];
    rewrite Hu; reflexivity.
Qed.

(** X8: the outcome of the identity lookup never matters: two clients that
    differ only in whether [google.auth.default()] succeeds or raises give
    the same exit status and the same dict. *)
Theorem identity_lookup_never_matters {World : Type}
  (respond1 respond2 : World -> api_call -> outcome * World) (w : World) :
  (forall w' c, c <> AuthDefault -> respond1 w' c = respond2 w' c) ->
  (forall w', snd (respond1 w' AuthDefault) = snd (respond2 w' AuthDefault)) ->
  exit_status respond1 w = exit_status respond2 w
  /\ permissions (snd (run_main respond1 w))
     = permissions (snd (run_main respond2 w)).
Proof.
  intros Hsame Hworld.
  unfold exit_status, run_main, main, generate_access_report,
    get_current_user_info, pass, try_except, bind, ret, client_call,
    assign_level, fresh.
  cbn [world log permissions level fst snd].
  rewrite (Hsame w NewClient) by discriminate.
  destruct (respond2 w NewClient) as [[|e1] w1];
    cbn [world log permissions level fst snd]; [ | split; reflexivity ].
  specialize (Hworld w1).
  destruct (respond1 w1 AuthDefault) as [o1 w2], (respond2 w1 AuthDefault) as [o2 w2'].
  cbn [snd] in Hworld. subst w2'.
  assert (Hprobe : forall f,
             check_dataset_permissions respond1 f
             = check_dataset_permissions respond2 f).
  { intros f. apply check_agrees. intros w' c Hc. apply Hsame.
    intros ->. cbn in Hc. pick_entry. }
  destruct o1 as [|e2], o2 as [|e3];
    cbn [world log permissions level fst snd];
    rewrite Hprobe;
    match goal with
    | |- context [fst (let (_, _) := (let (_, _) := (let (_, _) := check_dataset_permissions respond2 ?f1 in _) in _) in _)
                  = fst (let (_, _) := (let (_, _) := (let (_, _) := check_dataset_permissions respond2 ?f2 in _) in _) in _)] =>
        destruct (check_frame_independent respond2 f1) as [Ha [Ha' _]];
        destruct (check_frame_independent respond2 f2) as [Hb [Hb' _]];
        cbn [world] in Ha, Ha', Hb, Hb';
        destruct (check_dataset_permissions respond2 f1) as [r1 g1];
        destruct (check_dataset_permissions respond2 f2) as [r2 g2];
        cbn [fst snd] in Ha, Ha', Hb, Hb';
        rewrite <- Hb in Ha; rewrite <- Hb' in Ha'; subst r1;
        destruct r2; cbn [world log permissions level fst snd];
        split; congruence
    end.
Qed.

Lemma identity_lookup_never_matters_witness :
  exit_status
    (scripted (with_answer all_granted AuthDefault (Raise OtherError))) tt
  = exit_status (scripted all_granted) tt
  /\ permissions
       (snd (run_main
               (scripted (with_answer all_granted AuthDefault (Raise OtherError)))
               tt))
     = permissions (snd (run_main (scripted all_granted) tt)).
Proof.
  apply (identity_lookup_never_matters
           (scripted (with_answer all_granted AuthDefault (Raise OtherError)))
           (scripted all_granted) tt).
  - intros w' c Hc. destruct c; try reflexivity. contradiction Hc. reflexivity.
  - intros w'. reflexivity.
Defined.

(** ** The upload, read and pipeline tests *)

Lemma failure_last_sound (l : list (request * answer)) :
  failure_last l = true -> stops_at_failure l.
Proof.
  induction l as [|[r a] t IH]; intros Hl l1 r0 e l2 Heq.
  - destruct l1; discriminate Heq.
  - destruct l1 as [|x l1]; cbn in Heq; inversion Heq; subst.
    + cbn in Hl. destruct l2; [ reflexivity | discriminate Hl ].
    + apply (IH ltac:(destruct a; cbn in Hl;
                      [ exact Hl
                      | destruct (l1 ++ (r0, Fail e) :: l2) eqn:E;
                        [ destruct l1; discriminate E | discriminate Hl ] ])
               l1 r0 e l2 eq_refl).
Qed.

Section TestProofs.
Context {World : Type}.
Variable respond : World -> request -> answer * World.

Ltac unfold_tests :=
  unfold upload_exit, upload_asked, read_exit, read_asked, pipeline_exit,
    pipeline_asked, upload_main, read_main, pipeline_main, test_data_upload,
    test_data_read, test_write_attempt, test_ml_pipeline,
    test_pipeline_monitoring, simulate_ml_processing, t_try, t_bind, t_ret,
    t_raise, ask, start in *;
  cbn [client_world asked fst snd app andb] in *.

Ltac reply :=
  match goal with
  | |- context [respond ?w ?r] =>
      destruct (respond w r) as [[[|?]|?] ?];
      cbn [client_world asked fst snd app andb Nat.eqb] in *
  | H : context [respond ?w ?r] |- _ =>
      destruct (respond w r) as [[[|?]|?] ?];
      cbn [client_world asked fst snd app andb Nat.eqb] in *
  end.

(** X11: the upload test always ends with exit status 0 or 1, and 0
    exactly when the insert of the three rows reported no errors and the
    read-back query returned a row. *)
Theorem upload_exit_status (w : World) :
  exists code,
    upload_exit respond w = Returned code
    /\ (code = 0%Z \/ code = 1%Z)
    /\ (code = 0%Z
        <-> In (InsertRowsJson 3, Done 0) (upload_asked respond w)
            /\ exists n, In (CountToday, Done (S n)) (upload_asked respond w)).
Proof.
  unfold_tests. repeat reply;
    (eexists; split; [ reflexivity | ]);
    (split; [ first [ left; reflexivity | right; reflexivity ] | ]);
    (split;
     [ first [ discriminate
             | intros _; split; [ find_entry | eexists; find_entry ] ]
     | try reflexivity; intros [H [m H']]; pick_entry ]).
Qed.

(** X12: when the read-back query of the upload test fails, the test ends
    with exit status 1 although the insert of the three rows had already
    succeeded without errors. *)
Theorem upload_fails_without_read_back (w : World) (e : exn) :
  In (CountToday, Fail e) (upload_asked respond w) ->
  upload_exit respond w = Returned 1%Z
  /\ In (InsertRowsJson 3, Done 0) (upload_asked respond w).
Proof.
  unfold_tests. repeat reply; intros H; pick_entry;
    (split; [ reflexivity | find_entry ]).
Qed.



(** X15: [main] of the read script never raises, with or without
    --test-write: [has_write] is read only where it is bound.  Its exit
    status is 0 exactly when the read test passed, and it is the same with
    and without --test-write, whatever the write test finds. *)
Theorem read_main_exit_status (test_write : bool) (w : World) :
  exists code,
    read_exit respond test_write w = Returned code
    /\ (code = 0%Z \/ code = 1%Z)
    /\ (code = 0%Z
        <-> fst (test_data_read respond (start w)) = Returned true)
    /\ read_exit respond test_write w = read_exit respond false w.
Proof.
  unfold_tests. destruct test_write; repeat reply;
    (eexists; split; [ reflexivity | ]);
    (split; [ first [ left; reflexivity | right; reflexivity ] | ]);
    (split; [ split; first [ discriminate | reflexivity ] | reflexivity ]).
Qed.

(** X16: the read script issues its DELETE only on request and only after
    a passed read test: if the DELETE was asked, --test-write was given and
    the exit status is 0. *)
Theorem delete_only_on_request (test_write : bool) (w : World) :
  In DeleteAttempt (map fst (read_asked respond test_write w)) ->
  test_write = true
  /\ read_exit respond test_write w = Returned 0%Z
  /\ exists n, In (GetTable, Done n) (read_asked respond test_write w).
Proof.
  unfold_tests. destruct test_write; repeat reply;
    cbn [map fst In]; intros H; pick_entry;
    (split; [ reflexivity | split; [ reflexivity | eexists; find_entry ] ]).
Qed.

(** X17: the pipeline test never raises; it asks for the client, the
    read, the processing, the load and the summary in this order and goes
    on until a request fails; it returns [True] exactly when the summary
    query succeeded, and then all five requests succeeded, the processing
    and the load carrying the rows read (five when none were read); when it
    returns [False] its last request is one that failed. *)
Theorem pipeline_test_result (w : World) :
  exists b,
    fst (test_ml_pipeline respond (start w)) = Returned b
    /\ (b = true
        <-> exists n,
              In (Summarise, Done n)
                (asked (snd (test_ml_pipeline respond (start w)))))
    /\ stops_at_failure (asked (snd (test_ml_pipeline respond (start w))))
    /\ (exists n t,
           [Client; ReadRecent; Simulate n; LoadTable n; Summarise]
           = map fst (asked (snd (test_ml_pipeline respond (start w)))) ++ t)
    /\ (b = true ->
        exists c r m l s,
          asked (snd (test_ml_pipeline respond (start w)))
          = [(Client, Done c); (ReadRecent, Done r);
             (Simulate (if Nat.eqb r 0 then 5 else r), Done m);
             (LoadTable (if Nat.eqb r 0 then 5 else r), Done l);
             (Summarise, Done s)])
    /\ (b = false ->
        exists l1 r e,
          asked (snd (test_ml_pipeline respond (start w)))
          = l1 ++ [(r, Fail e)]).
Proof.
  unfold_tests. repeat reply;
    (eexists; split; [ reflexivity | ]);
    (split;
     [ split;
       [ first [ discriminate | intros _; eexists; find_entry ]
       | try reflexivity; intros [m H]; pick_entry ]
     | ]);
    (split; [ apply failure_last_sound; reflexivity | ]);
    (split;
     [ cbn [map fst app];
       first [ exists 0; eexists; reflexivity
             | do 2 eexists; reflexivity ]
     | ]);
    (split;
     [ first [ discriminate
             | intros _;
               match goal with
               | |- exists c r m l s,
                      (_ :: (ReadRecent, Done ?r0) :: _) = _ =>
                   eexists; exists r0; do 3 eexists; reflexivity
               end ]
     | first [ discriminate
             | intros _;
               first [ eexists nil; do 2 eexists; reflexivity
                     | eexists (_ :: nil); do 2 eexists; reflexivity
                     | eexists (_ :: _ :: nil); do 2 eexists; reflexivity
                     | eexists (_ :: _ :: _ :: nil); do 2 eexists;
                       reflexivity
                     | eexists (_ :: _ :: _ :: _ :: nil); do 2 eexists;
                       reflexivity ] ] ]).
Qed.

(** X18: the pipeline never loads an empty frame: the load that replaces
    the processed table carries the rows that were read, or the five sample
    rows when none were read, and is asked only after the read and the
    processing of exactly those rows succeeded. *)
Theorem pipeline_load_never_empty (w : World) (n : nat) (a : answer) :
  In (LoadTable n, a) (asked (snd (test_ml_pipeline respond (start w)))) ->
  1 <= n
  /\ (exists r,
         In (ReadRecent, Done r)
           (asked (snd (test_ml_pipeline respond (start w))))
         /\ n = if Nat.eqb r 0 then 5 else r)
  /\ exists m,
       In (Simulate n, Done m)
         (asked (snd (test_ml_pipeline respond (start w)))).
Proof.
  unfold_tests. repeat reply; intros H; pick_entry;
    (split; [ lia | ]);
    (split; [ eexists; split; [ find_entry | reflexivity ]
            | eexists; find_entry ]).
Qed.

(** X19: [main] of the pipeline script never raises; its exit status is 0
    exactly when the pipeline test passed and is the same with and without
    --monitor, whatever the monitoring query finds; the monitoring query is
    asked only with --monitor and after a passed pipeline test. *)
Theorem pipeline_main_exit_status (monitor : bool) (w : World) :
  exists code,
    pipeline_exit respond monitor w = Returned code
    /\ (code = 0%Z \/ code = 1%Z)
    /\ (code = 0%Z
        <-> fst (test_ml_pipeline respond (start w)) = Returned true)
    /\ pipeline_exit respond monitor w = pipeline_exit respond false w
    /\ (In Monitor (map fst (pipeline_asked respond monitor w)) ->
        monitor = true /\ code = 0%Z).
Proof.
  unfold_tests. destruct monitor; repeat reply;
    (eexists; split; [ reflexivity | ]);
    (split; [ first [ left; reflexivity | right; reflexivity ] | ]);
    (split; [ split; first [ discriminate | reflexivity ] | ]);
    (split; [ reflexivity | ]);
    cbn [map fst In]; intros H; pick_entry; split; reflexivity.
Qed.
End TestProofs.

(** *** The test theorems at concrete clients *)

Lemma upload_fails_without_read_back_witness :
  upload_exit (replying count_denied) tt = Returned 1%Z
  /\ In (InsertRowsJson 3, Done 0) (upload_asked (replying count_denied) tt).
Proof.
  apply (upload_fails_without_read_back (replying count_denied) tt Forbidden).
  vm_compute. right. right. left. reflexivity.
Defined.

Lemma delete_only_on_request_witness :
  true = true
  /\ read_exit (replying everything_done) true tt = Returned 0%Z
  /\ exists n, In (GetTable, Done n) (read_asked (replying everything_done) true tt).
Proof.
  apply (delete_only_on_request (replying everything_done) true tt).
  vm_compute. do 5 right. left. reflexivity.
Defined.

Lemma pipeline_load_never_empty_witness :
  1 <= 5
  /\ (exists r,
         In (ReadRecent, Done r)
           (asked (snd (test_ml_pipeline (replying nothing_recent) (start tt))))
         /\ 5 = if Nat.eqb r 0 then 5 else r)
  /\ exists m,
       In (Simulate 5, Done m)
         (asked (snd (test_ml_pipeline (replying nothing_recent) (start tt)))).
Proof.
  apply (pipeline_load_never_empty (replying nothing_recent) tt 5 (Done 1)).
  vm_compute. do 3 right. left. reflexivity.
Defined.

(** *** Scenarios of the tests *)

Example upload_passes :
  upload_exit (replying insert_clean) tt = Returned 0%Z
  /\ map fst (upload_asked (replying insert_clean) tt)
     = [Client; InsertRowsJson 3; CountToday].
Proof. split; reflexivity. Qed.

Example upload_with_insert_errors :
  upload_exit (replying everything_done) tt = Returned 1%Z
  /\ upload_asked (replying everything_done) tt
     = [(Client, Done 1); (InsertRowsJson 3, Done 1)].
Proof. split; reflexivity. Qed.

Example read_with_write_test :
  read_exit (replying everything_done) true tt = Returned 0%Z
  /\ map fst (read_asked (replying everything_done) true tt)
     = [Client; SelectPreview; SelectDaily; GetTable; Client; DeleteAttempt].
Proof. split; reflexivity. Qed.

Example pipeline_on_empty_source :
  map fst (pipeline_asked (replying nothing_recent) true tt)
  = [Client; ReadRecent; Simulate 5; LoadTable 5; Summarise; Client; Monitor].
Proof. reflexivity. Qed.

(** ** The text of the report *)

(** X20: the report shows a SELECT sample exactly when can_read_data is
    true, and an INSERT or CREATE TABLE sample exactly when can_read_data
    and can_write_data are both true, whatever level was derived: an
    identity classified WRITER or OWNER that cannot read is shown no sample
    query at all. *)
Theorem sample_queries_gated (project_id dataset_id : string) (p : Permissions) :
  suggests "SELECT COUNT" (report_text project_id dataset_id p)
  = item p can_read_data
  /\ suggests "INSERT INTO" (report_text project_id dataset_id p)
     = item p can_read_data && item p can_write_data
  /\ suggests "CREATE TABLE" (report_text project_id dataset_id p)
     = item p can_read_data && item p can_write_data.
Proof.
  destruct p as [e l g c r wr d u].
  destruct c, r, wr, d, u; repeat split; reflexivity.
Qed.
